(** * Outbound caller agent (src/agent.py): model and properties

    A shallow embedding of [OutboundCaller] and [entrypoint].

    - Python values are the inductive [pyval]; a [dict] with string keys is
      a [gmap string pyval].
    - A Python [str] is a Rocq [string]: one character stands for one code
      point below U+0100, which is where the classes [\s] and [\d] of the
      two patterns are written out in full.
    - Exceptions are values of [exn]; a computation that may raise returns a
      [result].
    - Everything the program awaits from its collaborators (conversation
      session, SIP provider, room service) is a [request]; the [host] record
      says how each request ends, and the requests are recorded, in the
      order they happen, in a trace of [event]s.
    - [logger.info] records are not part of the trace; the expressions they
      format are still evaluated where this can raise
      ([self.participant.identity]).
    - Two facts of the libraries the program calls are part of the model:
      [SpeechHandle.done()] returns a [bool], which [await] refuses with
      [TypeError]; and the request message of [create_sip_participant]
      takes a string for [sip_call_to] and raises [TypeError] on any other
      value, before anything is sent. *)

From Stdlib Require Import ZArith String Ascii List PrimFloat Lia.
From stdpp Require Import base strings gmap.
Import ListNotations.
Open Scope string_scope.

(** ** Python values *)

#[warnings="-register-all"]
Inductive pyval : Type :=
| PNone
| PBool (b : bool)
| PInt (z : Z)
| PFloat (f : float)
| PStr (s : string)
| PList (l : list pyval)
| PDict (d : gmap string pyval).

(** [bool(v)], the test behind [if v:] and [not v]. *)
Definition truthy (v : pyval) : bool :=
  match v with
  | PNone => false
  | PBool b => b
  | PInt z => negb (Z.eqb z 0)
  | PFloat f => negb (PrimFloat.eqb f 0%float)
  | PStr s => match s with EmptyString => false | String _ _ => true end
  | PList l => match l with [] => false | _ :: _ => true end
  | PDict d => negb (bool_decide (d = ∅))
  end.

Inductive exn : Type :=
| JSONDecodeError
| TypeError
| AttributeError
| KeyError
| TwirpError
| OtherException.

Inductive result (A : Type) : Type :=
| Ret (a : A)
| Raise (e : exn).
Arguments Ret {A} a.
Arguments Raise {A} e.

Definition rbind {A B} (r : result A) (k : A -> result B) : result B :=
  match r with
  | Ret a => k a
  | Raise e => Raise e
  end.

(** [sub in s] on two strings. *)
Fixpoint str_contains (sub s : string) : bool :=
  String.prefix sub s ||
  match s with
  | EmptyString => false
  | String _ s' => str_contains sub s'
  end.

Definition is_key (key : string) (v : pyval) : bool :=
  match v with
  | PStr s => String.eqb s key
  | _ => false
  end.

(** [key in v]: key lookup on a dict, element comparison on a list,
    substring test on a string, [TypeError] on the rest. *)
Definition py_in (key : string) (v : pyval) : result bool :=
  match v with
  | PDict d => Ret (bool_decide (is_Some (d !! key)))
  | PList l => Ret (existsb (is_key key) l)
  | PStr s => Ret (str_contains key s)
  | _ => Raise TypeError
  end.

(** [v[key] = x] with a string key: only a dict accepts it. *)
Definition py_setitem (v : pyval) (key : string) (x : pyval) : result pyval :=
  match v with
  | PDict d => Ret (PDict (<[key := x]> d))
  | _ => Raise TypeError
  end.

(** [d[key]] on a dict. *)
Definition py_getitem (d : gmap string pyval) (key : string) : result pyval :=
  match d !! key with
  | Some v => Ret v
  | None => Raise KeyError
  end.

(** ** The fragment of [re] used by the fallback extraction *)

Inductive regex : Type :=
| Lit (t : string)
| ClassPlus (cls : ascii -> bool)
| Group (r : regex)
| Cat (r1 r2 : regex).

Fixpoint strip_literal (t s : string) : option string :=
  match t with
  | EmptyString => Some s
  | String a t' =>
      match s with
      | EmptyString => None
      | String b s' => if Ascii.eqb a b then strip_literal t' s' else None
      end
  end.

(** [[cls]+]: greedy, one or more; on failure of the rest of the pattern
    it gives characters back one at a time. *)
Fixpoint class_plus {A} (cls : ascii -> bool) (s : string)
    (k : string -> option A) : option A :=
  match s with
  | EmptyString => None
  | String c s' =>
      if cls c then
        match class_plus cls s' k with
        | Some r => Some r
        | None => k s'
        end
      else None
  end.

(** The text matched between [s] and its suffix [s']. *)
Definition consumed (s s' : string) : string :=
  String.substring 0 (String.length s - String.length s') s.

(** Backtracking matcher in continuation style; [gs] are the groups closed
    so far (the patterns here have no nested group). *)
Fixpoint rmatch (r : regex) (s : string) (gs : list string)
    (k : string -> list string -> option (list string))
    : option (list string) :=
  match r with
  | Lit t =>
      match strip_literal t s with
      | Some s' => k s' gs
      | None => None
      end
  | ClassPlus cls => class_plus cls s (fun s' => k s' gs)
  | Group r1 =>
      rmatch r1 s gs (fun s' gs' => k s' (gs' ++ [consumed s s'])%list)
  | Cat r1 r2 => rmatch r1 s gs (fun s' gs' => rmatch r2 s' gs' k)
  end.

Definition match_here (r : regex) (s : string) : option (list string) :=
  rmatch r s [] (fun _ gs => Some gs).

(** [re.search]: the match at the leftmost position that has one. *)
Fixpoint re_search (r : regex) (s : string) : option (list string) :=
  match match_here r s with
  | Some gs => Some gs
  | None =>
      match s with
      | EmptyString => None
      | String _ s' => re_search r s'
      end
  end.

(** [m.group(1)] *)
Definition group1 (gs : list string) : string :=
  match gs with
  | g :: _ => g
  | [] => EmptyString
  end.

Definition code (c : ascii) : N := N_of_ascii c.

(** [\s] on code points below U+0100. *)
Definition is_space (c : ascii) : bool :=
  let n := code c in
  ((9 <=? n) && (n <=? 13) || (28 <=? n) && (n <=? 32) ||
   (n =? 133) || (n =? 160))%N.

(** [\d] on code points below U+0100. *)
Definition is_digit (c : ascii) : bool :=
  let n := code c in ((48 <=? n) && (n <=? 57))%N.

(** The class of the first [+]: single quote (39), double quote (34),
    [\s] and colon (58). *)
Definition label_sep (c : ascii) : bool :=
  let n := code c in
  ((n =? 39) || (n =? 34) || is_space c || (n =? 58))%N.

(** [[+\d]] *)
Definition number_char (c : ascii) : bool :=
  ((code c =? 43)%N || is_digit c).

(** The pattern of line 197 (and, with the other label, of line 198):
    the label, one or more separators, and as group 1 one or more of
    [[+\d]]. *)
Definition labelled_number (label : string) : regex :=
  Cat (Lit label) (Cat (ClassPlus label_sep) (Group (ClassPlus number_char))).

(** ** Everything outside the program *)

Record RemoteParticipant : Type := { identity : string }.

(** The handle of a spoken turn; [done] is what [SpeechHandle.done()]
    returns. The handle is an object and so is true. *)
Record SpeechHandle : Type := { done : bool }.

Inductive request : Type :=
| Connect
| SessionStart
| CreateSIPParticipant (room_name : string) (sip_trunk_id : option string)
    (sip_call_to : pyval) (participant_identity : string)
| WaitForParticipant (who : string)
| GenerateReply (instructions : string)
| TransferSIPParticipant (room_name : string) (participant_identity : string)
    (transfer_to : pyval)
| DeleteRoom (room : string).

Inductive event : Type :=
| Issued (r : request)
| Completed (r : request)
| Failed (r : request) (e : exn)
| Spawned (r : request)
| LogError (msg : string)
| Slept (seconds : Z)
| Shutdown.

(** The libraries and collaborators the job runs against.
    [outcome tr r] is how request [r] ends when issued after the events
    [tr]: [None] when it completes, [Some e] when it raises [e]. *)
Record host : Type := {
  json_loads : string -> result pyval;
  getenv : string -> option string;
  outcome : list event -> request -> option exn;
  room : string;
  current_speech : option SpeechHandle
}.

(** ** Metadata resolution (entrypoint, lines 184-222) *)

Section Resolution.
Variable h : host.

(** [os.getenv(name, default)] *)
Definition getenv_or (name default : string) : string :=
  match getenv h name with
  | Some v => v
  | None => default
  end.

(** The [except json.JSONDecodeError] branch. *)
Definition regex_fallback (metadata : string) : gmap string pyval :=
  let phone_match := re_search (labelled_number "phone_number") metadata in
  let transfer_match := re_search (labelled_number "transfer_to") metadata in
  let dial_info : gmap string pyval := ∅ in
  let dial_info :=
    match phone_match with
    | Some m => <["phone_number" := PStr (group1 m)]> dial_info
    | None => dial_info
    end in
  match transfer_match with
  | Some m => <["transfer_to" := PStr (group1 m)]> dial_info
  | None => dial_info
  end.

(** The outer [try] of lines 184-214. *)
Definition parse_metadata (metadata : pyval) : pyval :=
  if truthy metadata then
    match metadata with
    | PStr s =>
        match json_loads h s with
        | Ret v => v
        | Raise JSONDecodeError => PDict (regex_fallback s)
        | Raise _ => PDict ∅
        end
    | _ => metadata
    end
  else PDict ∅.

(** [if key not in dial_info: dial_info[key] = x] *)
Definition set_default (key : string) (x : pyval) (dial_info : pyval)
    : result pyval :=
  rbind (py_in key dial_info) (fun present =>
    if present then Ret dial_info else py_setitem dial_info key x).

(** Lines 216-222. *)
Definition apply_defaults (dial_info : pyval) : result pyval :=
  rbind (set_default "phone_number"
           (PStr (getenv_or "DEFAULT_PHONE_NUMBER" EmptyString)) dial_info)
    (fun dial_info =>
  rbind (set_default "transfer_to"
           (PStr (getenv_or "DEFAULT_TRANSFER_NUMBER" EmptyString)) dial_info)
    (fun dial_info =>
  set_default "prospect_name" (PStr "there") dial_info)).

Definition resolve_dial_info (metadata : pyval) : result pyval :=
  apply_defaults (parse_metadata metadata).
End Resolution.

(** ** Computations over the trace *)

Definition M (A : Type) : Type := list event -> result A * list event.

Definition ret {A} (a : A) : M A := fun tr => (Ret a, tr).

Definition raise {A} (e : exn) : M A := fun tr => (Raise e, tr).

Definition bind {A B} (m : M A) (k : A -> M B) : M B :=
  fun tr =>
    match m tr with
    | (Ret a, tr') => k a tr'
    | (Raise e, tr') => (Raise e, tr')
    end.

Declare Scope caller_scope.
Delimit Scope caller_scope with caller.
Notation "x <- m ;; k" := (bind m (fun x => k))
  (at level 100, m at next level, k at level 200, right associativity)
  : caller_scope.
Notation "m ;; k" := (bind m (fun _ => k))
  (at level 100, k at level 200, right associativity) : caller_scope.
Open Scope caller_scope.

Definition lift {A} (r : result A) : M A := fun tr => (r, tr).

Definition emit (e : event) : M unit := fun tr => (Ret tt, (tr ++ [e])%list).

(** [try: body except Exception as e: handler(e)] *)
Definition try_except {A} (body : M A) (handler : exn -> M A) : M A :=
  fun tr =>
    match body tr with
    | (Ret a, tr') => (Ret a, tr')
    | (Raise e, tr') => handler e tr'
    end.

(** [try: body except api.TwirpError as e: handler] *)
Definition try_except_twirp {A} (body : M A) (handler : M A) : M A :=
  try_except body (fun e =>
    match e with
    | TwirpError => handler
    | _ => raise e
    end).

(** [await b] on a [bool]: [TypeError], object bool can't be used in
    'await' expression. *)
Definition await_bool (b : bool) : M unit := raise TypeError.

Section Caller.
Variable h : host.

(** [await] of a request to a collaborator. *)
Definition await (r : request) : M unit :=
  fun tr =>
    let tr1 := (tr ++ [Issued r])%list in
    match outcome h tr1 r with
    | None => (Ret tt, (tr1 ++ [Completed r])%list)
    | Some e => (Raise e, (tr1 ++ [Failed r e])%list)
    end.

(** ** class OutboundCaller *)

Record OutboundCaller : Type := {
  participant : option RemoteParticipant;
  dial_info : gmap string pyval
}.

(** [__init__]; the instructions built from [name] go to the base class
    and are not read again. *)
Definition new_OutboundCaller (dial_info : gmap string pyval)
    : OutboundCaller :=
  {| participant := None; dial_info := dial_info |}.

Definition set_participant (self : OutboundCaller) (p : RemoteParticipant)
    : OutboundCaller :=
  {| participant := Some p; dial_info := dial_info self |}.

(** [self.participant.identity] *)
Definition participant_identity (self : OutboundCaller) : M string :=
  match participant self with
  | Some p => ret (identity p)
  | None => raise AttributeError
  end.

Definition hangup : M unit :=
  await (DeleteRoom (room h)).

(** The request carries the transfer number itself; the source sends it
    behind the prefix [tel:]. *)
Definition transfer_call (self : OutboundCaller) : M pyval :=
  transfer_to <- lift (py_getitem (dial_info self) "transfer_to") ;;
  if negb (truthy transfer_to) then ret (PStr "cannot transfer call")
  else
    await (GenerateReply "let the user know you'll be transferring them") ;;
    try_except
      (who <- participant_identity self ;;
       await (TransferSIPParticipant (room h) who transfer_to))
      (fun e =>
         emit (LogError "error transferring call") ;;
         await (GenerateReply "there was an error transferring the call.") ;;
         hangup) ;;
    ret PNone.

(** [current_speech.done()] returns a [bool], and line 126 awaits it. *)
Definition end_call (self : OutboundCaller) : M pyval :=
  _ <- participant_identity self ;;
  match current_speech h with
  | Some speech => await_bool (done speech)
  | None => ret tt
  end ;;
  hangup ;;
  ret PNone.

Definition look_up_availability (self : OutboundCaller) (date : string)
    : M pyval :=
  _ <- participant_identity self ;;
  emit (Slept 3) ;;
  ret (PDict {[ "available_times" :=
                  PList [PStr "1pm"; PStr "2pm"; PStr "3pm"] ]}).

Definition confirm_appointment (self : OutboundCaller) (date time : string)
    : M pyval :=
  _ <- participant_identity self ;;
  ret (PStr "reservation confirmed").

Definition detected_answering_machine (self : OutboundCaller) : M pyval :=
  _ <- participant_identity self ;;
  hangup ;;
  ret PNone.

(** ** entrypoint

    The value returned is the agent object as the job leaves it. The
    [AgentSession] and its plugins are built between the agent and the
    [create_task]; building them sends nothing to the collaborators and is
    left out. [api.CreateSIPParticipantRequest] is built before the request
    is sent: with a [sip_call_to] that is not a string it raises
    [TypeError], which [except api.TwirpError] does not catch. *)
Definition entrypoint (metadata : pyval) : M OutboundCaller :=
  await Connect ;;
  dial_info <- lift (resolve_dial_info h metadata) ;;
  match dial_info with
  | PDict d =>
      let agent := new_OutboundCaller d in
      emit (Spawned SessionStart) ;;
      try_except_twirp
        (phone_number <- lift (py_getitem d "phone_number") ;;
         if negb (truthy phone_number) then
           emit (LogError
                   "Cannot make outbound call: no phone number provided") ;;
           emit Shutdown ;;
           ret agent
         else
           match phone_number with
           | PStr _ =>
               await (CreateSIPParticipant (room h)
                        (getenv h "SIP_OUTBOUND_TRUNK_ID") phone_number
                        "phone_user") ;;
               await (WaitForParticipant "phone_user") ;;
               ret (set_participant agent {| identity := "phone_user" |})
           | _ => raise TypeError
           end)
        (emit (LogError "error creating SIP participant") ;;
         emit Shutdown ;;
         ret agent)
  | _ => raise AttributeError
  end.
End Caller.

(** ** Tool dispatch *)

Inductive tool : Type :=
| TransferCall
| EndCall
| LookUpAvailability (date : string)
| ConfirmAppointment (date time : string)
| DetectedAnsweringMachine.

Definition invoke (h : host) (self : OutboundCaller) (t : tool) : M pyval :=
  match t with
  | TransferCall => transfer_call h self
  | EndCall => end_call h self
  | LookUpAvailability date => look_up_availability self date
  | ConfirmAppointment date time => confirm_appointment self date time
  | DetectedAnsweringMachine => detected_answering_machine h self
  end.

(** ** Reading the trace *)

Fixpoint count_events (p : event -> bool) (tr : list event) : nat :=
  match tr with
  | [] => 0
  | e :: tr' => (if p e then 1 else 0) + count_events p tr'
  end.

Definition is_teardown_request (e : event) : bool :=
  match e with
  | Issued (DeleteRoom _) => true
  | _ => false
  end.

Definition is_dial_request (e : event) : bool :=
  match e with
  | Issued (CreateSIPParticipant _ _ _ _) => true
  | _ => false
  end.

Definition teardown_requests : list event -> nat :=
  count_events is_teardown_request.

Definition dial_requests : list event -> nat :=
  count_events is_dial_request.

(** The source keeps no call state. The terminal state of the
    specification is read off the trace: the room has been deleted, or the
    provider has taken the transfer. *)
Definition ends_call (e : event) : bool :=
  match e with
  | Completed (DeleteRoom _) => true
  | Completed (TransferSIPParticipant _ _ _) => true
  | _ => false
  end.

Definition call_ended (tr : list event) : bool := existsb ends_call tr.

(** The same collaborators, seen from a session that starts after [tr]. *)
Definition after (tr : list event) (h : host) : host :=
  {| json_loads := json_loads h;
     getenv := getenv h;
     outcome := fun tr' r => outcome h (tr ++ tr')%list r;
     room := room h;
     current_speech := current_speech h |}.

Definition announcement : request :=
  GenerateReply "let the user know you'll be transferring them".


(** ** Labelled tokens in a text *)

Fixpoint all_chars (cls : ascii -> bool) (s : string) : bool :=
  match s with
  | EmptyString => true
  | String c s' => cls c && all_chars cls s'
  end.

Definition starts_with (cls : ascii -> bool) (s : string) : bool :=
  match s with
  | EmptyString => false
  | String c _ => cls c
  end.

(** [tok] is a whole run of [[+\d]] characters that follows, in [s], the
    text [pre], the label and one or more separators. *)
Definition labelled_token (label s pre tok : string) : Prop :=
  exists seps rest,
    s = pre +:+ label +:+ seps +:+ tok +:+ rest /\
    seps <> EmptyString /\ all_chars label_sep seps = true /\
    tok <> EmptyString /\ all_chars number_char tok = true /\
    starts_with number_char rest = false.

(** ** Hosts for the examples *)

(** A decoder given by the finite table of the texts it accepts, each with
    the value [json.loads] returns on it; a text outside the table is one
    [json.loads] rejects with [JSONDecodeError]. *)
Fixpoint loads_table (tbl : list (string * pyval)) (s : string)
    : result pyval :=
  match tbl with
  | [] => Raise JSONDecodeError
  | (t, v) :: tbl' => if String.eqb t s then Ret v else loads_table tbl' s
  end.

(** Empty environment, every request completes, room [room-1]. *)
Definition quiet_host (tbl : list (string * pyval))
    (speech : option SpeechHandle)
    : host :=
  {| json_loads := loads_table tbl;
     getenv := fun _ => None;
     outcome := fun _ _ => None;
     room := "room-1";
     current_speech := speech |}.

(** As [quiet_host], with a provider that refuses every transfer. *)
Definition refusing_host : host :=
  {| json_loads := loads_table [];
     getenv := fun _ => None;
     outcome := fun _ r =>
       match r with
       | TransferSIPParticipant _ _ _ => Some TwirpError
       | _ => None
       end;
     room := "room-1";
     current_speech := None |}.

Definition phone_user : RemoteParticipant := {| identity := "phone_user" |}.

(** An answered call placed from the given dial info. *)
Definition answered (d : gmap string pyval) : OutboundCaller :=
  set_participant (new_OutboundCaller d) phone_user.

Definition both_numbers : gmap string pyval :=
  <["prospect_name" := PStr "there"]>
    (<["transfer_to" := PStr "+15557654321"]>
       (<["phone_number" := PStr "+15551234567"]> ∅)).

Definition no_transfer_number : gmap string pyval :=
  <["prospect_name" := PStr "there"]>
    (<["transfer_to" := PStr EmptyString]>
       (<["phone_number" := PStr "+15551234567"]> ∅)).

(** What resolution makes of absent metadata in an empty environment. *)
Definition defaults_only : gmap string pyval :=
  <["prospect_name" := PStr "there"]>
    (<["transfer_to" := PStr EmptyString]>
       (<["phone_number" := PStr EmptyString]> ∅)).

(** The trace of one completed teardown. *)
Definition room_deleted : list event :=
  [Issued (DeleteRoom "room-1"); Completed (DeleteRoom "room-1")].

(** A dict printed the Python way, which [json.loads] rejects, with two
    labels that end in [phone_number]. *)
Definition two_labels : string :=
  "{'office_phone_number': '+15550000000', 'phone_number': '+15551234567'}".

(** ** Definitions for the further properties *)

(** The three defaults of lines 216-222 as one dict. *)
Definition default_dial_info (h : host) : gmap string pyval :=
  <["phone_number" := PStr (getenv_or h "DEFAULT_PHONE_NUMBER" EmptyString)]>
    (<["transfer_to" :=
         PStr (getenv_or h "DEFAULT_TRANSFER_NUMBER" EmptyString)]>
       (<["prospect_name" := PStr "there"]> ∅)).

(** The same host at a moment when nothing is being spoken. *)
Definition without_speech (h : host) : host :=
  {| json_loads := json_loads h;
     getenv := getenv h;
     outcome := outcome h;
     room := room h;
     current_speech := None |}.

(** The one [create_sip_participant] request of [entrypoint]. *)
Definition dial_request (h : host) (number : pyval) : request :=
  CreateSIPParticipant (room h) (getenv h "SIP_OUTBOUND_TRUNK_ID") number
    "phone_user".

Definition office_env (name : string) : option string :=
  if String.eqb name "DEFAULT_PHONE_NUMBER" then Some "+15550001111"
  else if String.eqb name "DEFAULT_TRANSFER_NUMBER" then Some "+15550002222"
  else if String.eqb name "SIP_OUTBOUND_TRUNK_ID" then Some "ST_office"
  else None.

(** A configured environment; every request completes. *)
Definition office_host (tbl : list (string * pyval)) : host :=
  {| json_loads := loads_table tbl;
     getenv := office_env;
     outcome := fun _ _ => None;
     room := "room-1";
     current_speech := None |}.

(** As [quiet_host], with a callee who does not answer. *)
Definition unanswered_host : host :=
  {| json_loads := loads_table [];
     getenv := fun _ => None;
     outcome := fun _ r =>
       match r with
       | CreateSIPParticipant _ _ _ _ => Some TwirpError
       | _ => None
       end;
     room := "room-1";
     current_speech := None |}.

(** As [quiet_host], with a conversation session that cannot speak. *)
Definition mute_host : host :=
  {| json_loads := loads_table [];
     getenv := fun _ => None;
     outcome := fun _ r =>
       match r with
       | GenerateReply _ => Some OtherException
       | _ => None
       end;
     room := "room-1";
     current_speech := None |}.

(** A decoder that fails with something else than [JSONDecodeError], as
    [json.loads] does on a text nested too deep. *)
Definition overflowing_host : host :=
  {| json_loads := fun _ => Raise OtherException;
     getenv := office_env;
     outcome := fun _ _ => None;
     room := "room-1";
     current_speech := None |}.

Fixpoint brackets (n : nat) : string :=
  match n with
  | O => EmptyString
  | S n' => String "[" (brackets n')
  end.

(** A hundred thousand opening brackets and then a labelled number: the
    decoder runs out of stack on it ([RecursionError]) before it can
    reject the text. *)
Definition deep_text : string := brackets (10 ^ 5) +:+ " phone_number: 5".

Definition dquote : string := String (ascii_of_nat 34) EmptyString.

(** The JSON object with the one key [phone_number]. *)
Definition phone_only_json : string :=
  "{" +:+ dquote +:+ "phone_number" +:+ dquote +:+ ": " +:+ dquote
  +:+ "+15551234567" +:+ dquote +:+ "}".

Definition phone_only : gmap string pyval :=
  <["phone_number" := PStr "+15551234567"]> ∅.


Definition backslash : string := String (ascii_of_nat 92) EmptyString.

(** A JSON object whose quotes arrive escaped, each double quote behind a
    backslash: [json.loads] rejects it. *)
Definition escaped_json : string :=
  "{" +:+ backslash +:+ dquote +:+ "phone_number" +:+ backslash +:+ dquote
  +:+ ": " +:+ backslash +:+ dquote +:+ "+15551234567" +:+ backslash
  +:+ dquote +:+ "}".

(** * Properties *)

Local Open Scope list_scope.
#[local] Arguments String.append !_ _ / : simpl nomatch.

Ltac norm_trace := rewrite <- ?app_assoc; simpl.

(** Every way of cutting a known trace [new = pre ++ e :: post]. *)
Ltac cut_trace H pre :=
  repeat (destruct pre as [|? pre]; simpl in H;
          [ try discriminate H
          | first [ injection H as <- H | discriminate H ] ]).

Ltac unfold_caller :=
  unfold invoke, transfer_call, end_call, look_up_availability,
    confirm_appointment, detected_answering_machine, hangup,
    participant_identity, try_except, await, await_bool, emit, lift,
    py_getitem, bind, ret, raise in *.

Ltac split_outcomes h :=
  repeat match goal with
         | |- context [match outcome h ?t ?r with _ => _ end] =>
             let E := fresh "E" in
             destruct (outcome h t r) eqn:E; norm_trace
         end.

(** ** Metadata resolution *)

Lemma set_default_dict (key : string) (x : pyval) (d : gmap string pyval) :
  set_default key x (PDict d) =
  Ret (PDict (match d !! key with Some _ => d | None => <[key := x]> d end)).
Proof.
  unfold set_default; simpl.
  destruct (d !! key) as [y|] eqn:E.
  - rewrite bool_decide_eq_true_2 by eauto. reflexivity.
  - rewrite bool_decide_eq_false_2 by (intros [y Hy]; congruence). reflexivity.
Qed.

(** A default leaves a dict a dict, adds the key and keeps what was there. *)
Lemma set_default_inv (key : string) (x v : pyval) (d : gmap string pyval) :
  set_default key x v = Ret (PDict d) ->
  exists d0, v = PDict d0 /\ is_Some (d !! key) /\
             (forall k y, d0 !! k = Some y -> d !! k = Some y).
Proof.
  destruct v as [| b | z | f | s | l | d0].
  1-4: discriminate.
  - unfold set_default; simpl. destruct (str_contains key s); discriminate.
  - unfold set_default; simpl. destruct (existsb (is_key key) l); discriminate.
  - rewrite set_default_dict.
    intros H. exists d0. split; [reflexivity|].
    destruct (d0 !! key) as [y|] eqn:E; injection H as <-.
    + split; [eauto | auto].
    + split; [rewrite lookup_insert_eq; eauto|].
      intros k y Hk. rewrite lookup_insert_ne; [assumption | congruence].
Qed.

Lemma apply_defaults_inv (h : host) (v : pyval) (d : gmap string pyval) :
  apply_defaults h v = Ret (PDict d) ->
  exists d0, v = PDict d0 /\
    is_Some (d !! "phone_number") /\ is_Some (d !! "transfer_to") /\
    is_Some (d !! "prospect_name") /\
    (forall k y, d0 !! k = Some y -> d !! k = Some y).
Proof.
  unfold apply_defaults. intros H.
  destruct (set_default "phone_number" _ v) as [v1|] eqn:E1; simpl in H;
    [|discriminate].
  destruct (set_default "transfer_to" _ v1) as [v2|] eqn:E2; simpl in H;
    [|discriminate].
  apply set_default_inv in H as (d2 & -> & Hname & K2).
  apply set_default_inv in E2 as (d1 & -> & [t Ht] & K1).
  apply set_default_inv in E1 as (d0 & -> & [p Hp] & K0).
  exists d0. repeat split; eauto.
Qed.

(** Whenever resolution returns a dict, the three keys are in it. *)
Lemma resolve_populated (h : host) (metadata : pyval) (d : gmap string pyval) :
  resolve_dial_info h metadata = Ret (PDict d) ->
  is_Some (d !! "phone_number") /\ is_Some (d !! "transfer_to") /\
  is_Some (d !! "prospect_name").
Proof.
  intros H. apply apply_defaults_inv in H as (d0 & _ & H1 & H2 & H3 & _).
  auto.
Qed.

(** Structured metadata, an absent value and a text that [json.loads]
    rejects always resolve to a populated dict. *)
Lemma resolve_dict_total (h : host) (d0 : gmap string pyval) :
  exists d, apply_defaults h (PDict d0) = Ret (PDict d).
Proof.
  unfold apply_defaults. rewrite set_default_dict. simpl.
  rewrite set_default_dict. simpl. rewrite set_default_dict. eauto.
Qed.

(** Absent metadata, a dict, a text that [json.loads] rejects or fails on,
    and a text that decodes to an object all resolve to a populated
    dict. *)
Lemma resolve_total_on_dicts (h : host) (metadata : pyval)
    (d0 : gmap string pyval) :
  parse_metadata h metadata = PDict d0 ->
  exists d, resolve_dial_info h metadata = Ret (PDict d) /\
    is_Some (d !! "phone_number") /\ is_Some (d !! "transfer_to") /\
    is_Some (d !! "prospect_name").
Proof.
  intros Hparse. unfold resolve_dial_info. rewrite Hparse.
  destruct (resolve_dict_total h d0) as [d Hd]. exists d.
  split; [assumption|].
  apply apply_defaults_inv in Hd as (_ & _ & H1 & H2 & H3 & _). auto.
Qed.

Lemma parse_metadata_rejected (h : host) (s : string) (e : exn) :
  json_loads h s = Raise e -> exists d0, parse_metadata h (PStr s) = PDict d0.
Proof.
  intros Hjson. unfold parse_metadata.
  destruct (truthy (PStr s)); [|eauto]. rewrite Hjson. destruct e; eauto.
Qed.

(** Metadata without a phone number resolves to the configured default. *)
Lemma resolve_default_phone_number (h : host) (metadata : pyval)
    (d0 : gmap string pyval) :
  parse_metadata h metadata = PDict d0 -> d0 !! "phone_number" = None ->
  exists d, resolve_dial_info h metadata = Ret (PDict d) /\
    d !! "phone_number" =
      Some (PStr (getenv_or h "DEFAULT_PHONE_NUMBER" EmptyString)).
Proof.
  intros Hparse Hnone. unfold resolve_dial_info. rewrite Hparse.
  unfold apply_defaults. rewrite set_default_dict, Hnone. simpl.
  rewrite set_default_dict. simpl. rewrite set_default_dict.
  eexists. split; [reflexivity|].
  repeat match goal with
         | |- context [match ?m !! ?k with _ => _ end] =>
             destruct (m !! k)
         end;
    rewrite ?lookup_insert_ne by discriminate; apply lookup_insert_eq.
Qed.

(** C9: at the metadata text [15551234567], which [json.loads] decodes to
    the integer 15551234567, resolution raises [TypeError] instead of
    returning a dial info: the membership test of line 217 is applied to
    an [int], outside both [try] blocks. *)
Theorem resolve_raises_on_json_number :
  resolve_dial_info (quiet_host [("15551234567", PInt 15551234567)] None)
    (PStr "15551234567") = Raise TypeError.
Proof. reflexivity. Qed.

(** The same for every text that decodes to a number, a boolean or
    [null]. *)
Lemma resolve_raises_on_json_scalar (h : host) (s : string) (v : pyval) :
  s <> EmptyString -> json_loads h s = Ret v ->
  match v with
  | PNone | PBool _ | PInt _ | PFloat _ => True
  | _ => False
  end ->
  resolve_dial_info h (PStr s) = Raise TypeError.
Proof.
  intros Hs Hv Hscalar. unfold resolve_dial_info, parse_metadata.
  destruct s as [|c s]; [congruence|]. simpl. rewrite Hv.
  destruct v; try contradiction; reflexivity.
Qed.

(** ** transfer_call without a transfer number *)

(** C3: when the resolved dial info carries no transfer number (the value
    under [transfer_to] is empty), [transfer_call] returns
    [cannot transfer call] and leaves the trace as it was: no announcement,
    no transfer request, and the call is as live as before. *)
Theorem transfer_call_without_number (h : host) (metadata : pyval)
    (self : OutboundCaller) (tr : list event) :
  resolve_dial_info h metadata = Ret (PDict (dial_info self)) ->
  (forall v, dial_info self !! "transfer_to" = Some v -> truthy v = false) ->
  transfer_call h self tr = (Ret (PStr "cannot transfer call"), tr) /\
  call_ended (snd (transfer_call h self tr)) = call_ended tr.
Proof.
  intros Hres Hempty.
  destruct (resolve_populated _ _ _ Hres) as (_ & [v Hv] & _).
  assert (E : transfer_call h self tr = (Ret (PStr "cannot transfer call"), tr)).
  { unfold transfer_call, bind, lift, py_getitem. rewrite Hv.
    rewrite (Hempty v Hv). reflexivity. }
  rewrite E. auto.
Qed.

(** ** The dial guard *)

(** C7: when the phone number that resolution leaves in the dial info is
    empty, [entrypoint] issues no dial request; once the room is joined it
    logs that no number was provided, shuts the job down and returns, the
    agent never bound to a participant. *)
Theorem no_dial_without_number (h : host) (metadata : pyval)
    (d : gmap string pyval) (v : pyval) (tr : list event) :
  resolve_dial_info h metadata = Ret (PDict d) ->
  d !! "phone_number" = Some v -> truthy v = false ->
  exists r new,
    entrypoint h metadata tr = (r, tr ++ new) /\
    dial_requests new = 0 /\
    (outcome h (tr ++ [Issued Connect]) Connect = None ->
     r = Ret (new_OutboundCaller d) /\
     new = [Issued Connect; Completed Connect; Spawned SessionStart;
            LogError "Cannot make outbound call: no phone number provided";
            Shutdown]).
Proof.
  intros Hres Hv Hempty.
  unfold entrypoint, bind, await.
  destruct (outcome h (tr ++ [Issued Connect]) Connect) as [e|] eqn:Hc.
  - eexists _, _. norm_trace. split; [reflexivity|]. split; [reflexivity|].
    discriminate.
  - unfold lift. rewrite Hres.
    unfold try_except_twirp, try_except, emit, bind, lift, py_getitem, ret.
    rewrite Hv, Hempty. simpl. eexists _, _. norm_trace.
    split; [reflexivity|]. split; [reflexivity|]. auto.
Qed.

(** The agent [entrypoint] leaves behind is bound to a participant only
    on the path that ends with the answer of [wait_for_participant]. *)
Lemma entrypoint_binds_after_answer (h : host) (metadata : pyval)
    (tr tr' : list event) (agent : OutboundCaller) :
  entrypoint h metadata tr = (Ret agent, tr') ->
  participant agent = None \/
  (participant agent = Some phone_user /\
   exists pre, tr' = pre ++ [Completed (WaitForParticipant "phone_user")]).
Proof.
  unfold entrypoint, bind, await.
  destruct (outcome h (tr ++ [Issued Connect]) Connect); [discriminate|].
  unfold lift. destruct (resolve_dial_info h metadata) as [v|]; [|discriminate].
  destruct v; try discriminate.
  unfold try_except_twirp, try_except, emit, bind, lift, py_getitem, ret, await.
  destruct (d !! "phone_number") as [pn|]; [|discriminate].
  destruct (truthy pn); simpl.
  - destruct pn; try discriminate. norm_trace.
    repeat match goal with
           | |- context [match outcome h ?t ?r with _ => _ end] =>
               destruct (outcome h t r) as [[]|]; norm_trace
           end;
      intros H; inversion H; subst; auto.
    right. split; [reflexivity|].
    eexists (tr ++ _ :: _ :: _ :: _ :: _ :: _ :: []).
    norm_trace. reflexivity.
  - intros H; inversion H; auto.
Qed.

(** ** Tools and the participant *)

(** C10: on an agent with no participant bound, [end_call] and
    [detected_answering_machine] raise [AttributeError] before doing
    anything; a new agent has no participant, and [set_participant] is
    what binds one. *)
Theorem tools_need_participant (h : host) (self : OutboundCaller)
    (tr : list event) :
  participant self = None ->
  end_call h self tr = (Raise AttributeError, tr) /\
  detected_answering_machine h self tr = (Raise AttributeError, tr) /\
  participant (new_OutboundCaller (dial_info self)) = None /\
  forall p, participant (set_participant self p) = Some p.
Proof.
  intros Hp.
  unfold end_call, detected_answering_machine, bind, participant_identity.
  rewrite Hp. auto.
Qed.

(** ** end_call *)

(** With a participant bound and a turn being spoken, [end_call] raises
    [TypeError] at the [await] of line 126, whatever [done()] says: no
    request has gone out and the room is not deleted. *)
Lemma end_call_during_speech (h : host) (self : OutboundCaller)
    (p : RemoteParticipant) (speech : SpeechHandle) (tr : list event) :
  participant self = Some p -> current_speech h = Some speech ->
  end_call h self tr = (Raise TypeError, tr).
Proof.
  intros Hp Hs. unfold_caller. rewrite Hp, Hs. reflexivity.
Qed.

(** C6: on an answered call with a turn in progress, [end_call] does not
    wait and then delete the room: it raises [TypeError] and the trace
    stays empty. *)
Theorem end_call_raises_during_speech :
  end_call (quiet_host [] (Some {| done := false |})) (answered both_numbers)
    []
  = (Raise TypeError, []).
Proof. reflexivity. Qed.

Lemma count_events_app (p : event -> bool) (l1 l2 : list event) :
  count_events p (l1 ++ l2) = count_events p l1 + count_events p l2.
Proof.
  induction l1 as [|e l1 IH]; simpl; [reflexivity | rewrite IH; lia].
Qed.

(** An [end_call] that returns has returned [None] and has issued one
    delete-room request. *)
Lemma end_call_returns (h : host) (self : OutboundCaller)
    (tr tr' : list event) (r : pyval) :
  end_call h self tr = (Ret r, tr') ->
  r = PNone /\ teardown_requests tr' = S (teardown_requests tr).
Proof.
  unfold_caller. unfold teardown_requests.
  destruct (participant self); [|discriminate].
  destruct (current_speech h); split_outcomes h; intros H;
    inversion H; subst; rewrite ?count_events_app; simpl; split; auto; lia.
Qed.

(** C2, as the code has it: two [end_call]s in sequence that both return
    have issued two delete-room requests, one each, and the second returns
    [None] like the first. *)
Theorem end_call_twice (h : host) (self : OutboundCaller)
    (tr tr1 tr2 : list event) (r1 r2 : pyval) :
  end_call h self tr = (Ret r1, tr1) ->
  end_call h self tr1 = (Ret r2, tr2) ->
  r1 = PNone /\ r2 = PNone /\
  teardown_requests tr2 = teardown_requests tr + 2.
Proof.
  intros H1 H2.
  apply end_call_returns in H1 as [-> E1].
  apply end_call_returns in H2 as [-> E2].
  repeat split. lia.
Qed.

(** ** Tools after the call has ended *)

(** C1, as the code has it: a tool invoked after the call has ended does
    what it does on a session that starts there, with collaborators that
    answer alike: same result, same events appended. No tool looks at what
    happened before. *)
Theorem tools_ignore_call_state (h : host) (self : OutboundCaller) (t : tool)
    (tr : list event) :
  call_ended tr = true ->
  invoke h self t tr =
  (fst (invoke (after tr h) self t []),
   tr ++ snd (invoke (after tr h) self t [])).
Proof.
  intros _. destruct t; unfold_caller; simpl;
    destruct (participant self); simpl; rewrite ?app_nil_r; try reflexivity.
  all: try (destruct (dial_info self !! "transfer_to") as [v|]; simpl;
            rewrite ?app_nil_r; [|reflexivity];
            destruct (truthy v); simpl; rewrite ?app_nil_r; [|reflexivity]).
  all: try (destruct (current_speech h); simpl).
  all: norm_trace; split_outcomes h; rewrite ?app_nil_r; reflexivity.
Qed.

(** ** transfer_call with a transfer number *)

(** C4: with a transfer number present, whatever [transfer_call] appends
    to the trace has the completed announcement before any transfer
    request; and with a participant bound and the announcement delivered,
    the transfer request is what comes next. *)
Theorem transfer_announces_first (h : host) (self : OutboundCaller)
    (v : pyval) (tr : list event) :
  dial_info self !! "transfer_to" = Some v -> truthy v = true ->
  exists new,
    snd (transfer_call h self tr) = tr ++ new /\
    (forall pre rm who to post,
       new = pre ++ Issued (TransferSIPParticipant rm who to) :: post ->
       In (Completed announcement) pre) /\
    (forall p,
       participant self = Some p ->
       outcome h (tr ++ [Issued announcement]) announcement = None ->
       exists post,
         new = [Issued announcement; Completed announcement;
                Issued (TransferSIPParticipant (room h) (identity p) v)]
               ++ post).
Proof.
  intros Hv Ht. unfold announcement. unfold_caller. rewrite Hv, Ht. simpl.
  destruct (participant self) as [p0|] eqn:Hp; norm_trace; split_outcomes h;
    (eexists; split; [reflexivity|]; split;
     [ intros pre rm who to post H; cut_trace H pre; simpl; auto
     | intros p Hp' Ha; try congruence; injection Hp' as <-;
       eexists; reflexivity ]).
Qed.



(** ** The fallback extraction *)

Section Strings.
Implicit Types s t u : string.

Lemma append_assoc s t u : (s +:+ t) +:+ u = s +:+ t +:+ u.
Proof. induction s as [|c s IH]; simpl; [reflexivity | now rewrite IH]. Qed.

Lemma length_append s t :
  String.length (s +:+ t) = String.length s + String.length t.
Proof. induction s as [|c s IH]; simpl; [reflexivity | now rewrite IH]. Qed.

Lemma substring_whole_prefix s t :
  String.substring 0 (String.length s) (s +:+ t) = s.
Proof. induction s as [|c s IH]; simpl; [now destruct t | now rewrite IH]. Qed.

Lemma consumed_append s t : consumed (s +:+ t) t = s.
Proof.
  unfold consumed. rewrite length_append.
  replace (String.length s + String.length t - String.length t)
    with (String.length s) by lia.
  apply substring_whole_prefix.
Qed.

Lemma strip_literal_append t s : strip_literal t (t +:+ s) = Some s.
Proof.
  induction t as [|c t IH]; simpl; [reflexivity|].
  now rewrite Ascii.eqb_refl.
Qed.

Lemma strip_literal_inv t s s' : strip_literal t s = Some s' -> s = t +:+ s'.
Proof.
  revert s. induction t as [|c t IH]; intros s; simpl.
  - now intros [= ->].
  - destruct s as [|b s]; [discriminate|].
    destruct (Ascii.eqb c b) eqn:E; [|discriminate].
    apply Ascii.eqb_eq in E as ->. intros H. now rewrite (IH _ H).
Qed.
End Strings.

Section ClassPlus.
Context {A : Type} (cls : ascii -> bool).

Lemma class_plus_stops (s : string) (k : string -> option A) :
  starts_with cls s = false -> class_plus cls s k = None.
Proof. destruct s as [|c s]; simpl; [reflexivity | now intros ->]. Qed.

(** The whole run is taken when the rest of the pattern accepts what follows it. *)
Lemma class_plus_whole_run (t rest : string) (k : string -> option A) (r : A) :
  t <> EmptyString -> all_chars cls t = true ->
  starts_with cls rest = false -> k rest = Some r ->
  class_plus cls (t +:+ rest) k = Some r.
Proof.
  intros Hne Hall Hrest Hk. induction t as [|c t IH]; [congruence|].
  simpl in *. apply andb_prop in Hall as [-> Hall].
  destruct t as [|c' t].
  - simpl. now rewrite class_plus_stops.
  - rewrite IH; [reflexivity | discriminate | assumption].
Qed.

(** A match takes a non-empty run of the class and continues after it. *)
Lemma class_plus_inv (s : string) (k : string -> option A) (r : A) :
  class_plus cls s k = Some r ->
  exists t rest, s = t +:+ rest /\ t <> EmptyString /\
                 all_chars cls t = true /\ k rest = Some r.
Proof.
  induction s as [|c s IH]; simpl; [discriminate|].
  destruct (cls c) eqn:Hc; [|discriminate].
  destruct (class_plus cls s k) as [r'|] eqn:E.
  - intros [= ->]. destruct (IH eq_refl) as (t & rest & -> & _ & Hall & Hk).
    exists (String c t), rest. simpl. rewrite Hc, Hall.
    repeat split; auto; discriminate.
  - intros Hk. exists (String c EmptyString), s. simpl. rewrite Hc.
    repeat split; auto; discriminate.
Qed.
End ClassPlus.

(** The longest prefix of [s] in the class, and what follows it. *)
Lemma longest_run (cls : ascii -> bool) (s : string) :
  exists t rest, s = t +:+ rest /\ all_chars cls t = true /\
                 starts_with cls rest = false.
Proof.
  induction s as [|c s (t & rest & -> & Hall & Hrest)].
  - exists EmptyString, EmptyString. auto.
  - destruct (cls c) eqn:Hc.
    + exists (String c t), rest. simpl. rewrite Hc, Hall. auto.
    + exists EmptyString, (String c (t +:+ rest)). simpl. auto.
Qed.

Lemma label_sep_not_number (c : ascii) :
  number_char c = true -> label_sep c = false.
Proof.
  unfold number_char, label_sep, is_digit, is_space.
  generalize (code c). intros n H.
  repeat match goal with
         | |- context [(?a =? ?b)%N] => destruct (N.eqb_spec a b)
         | |- context [(?a <=? ?b)%N] => destruct (N.leb_spec a b)
         | H : context [(?a =? ?b)%N] |- _ => destruct (N.eqb_spec a b)
         | H : context [(?a <=? ?b)%N] |- _ => destruct (N.leb_spec a b)
         end; simpl in *; try reflexivity; try discriminate; lia.
Qed.

Section LabelledNumber.
Variable label : string.

Lemma match_here_token (seps tok rest : string) :
  seps <> EmptyString -> all_chars label_sep seps = true ->
  tok <> EmptyString -> all_chars number_char tok = true ->
  starts_with number_char rest = false ->
  match_here (labelled_number label) (label +:+ seps +:+ tok +:+ rest)
  = Some [tok].
Proof.
  intros Hs Hsa Ht Hta Hr. unfold match_here, labelled_number. simpl.
  rewrite strip_literal_append.
  apply class_plus_whole_run; auto.
  - destruct tok as [|c tok]; [congruence|]. simpl in *.
    apply andb_prop in Hta as [Hc _]. now apply label_sep_not_number.
  - apply class_plus_whole_run; auto. now rewrite consumed_append.
Qed.

Lemma match_here_inv (s : string) (gs : list string) :
  match_here (labelled_number label) s = Some gs ->
  exists tok, labelled_token label s EmptyString tok.
Proof.
  unfold match_here, labelled_number. simpl.
  destruct (strip_literal label s) as [s1|] eqn:E; [|discriminate].
  apply strip_literal_inv in E as ->.
  intros H. apply class_plus_inv in H as (seps & s2 & -> & Hs & Hsa & H).
  apply class_plus_inv in H as (t & s3 & -> & Ht & Hta & _).
  destruct (longest_run number_char s3) as (t' & rest & -> & Hta' & Hrest).
  exists (t +:+ t'), seps, rest. simpl.
  rewrite append_assoc. repeat split; auto.
  - destruct t; [congruence | discriminate].
  - clear Ht. induction t as [|c t IH]; simpl in *; [assumption|].
    apply andb_prop in Hta as [-> Hta]. auto.
Qed.

Lemma re_search_leftmost (pre s tok : string) :
  labelled_token label s pre tok ->
  (forall pre' tok', labelled_token label s pre' tok' ->
                     String.length pre <= String.length pre') ->
  re_search (labelled_number label) s = Some [tok].
Proof.
  revert s. induction pre as [|c pre IH]; intros s Htok Hleft.
  - destruct Htok as (seps & rest & -> & Hs & Hsa & Ht & Hta & Hr).
    simpl. 
    assert (E := match_here_token seps tok rest Hs Hsa Ht Hta Hr).
    destruct (label +:+ seps +:+ tok +:+ rest); simpl; now rewrite E.
  - assert (Hs : exists s', s = String c s' /\ labelled_token label s' pre tok).
    { destruct Htok as (seps & rest & -> & H). simpl. eexists. split; [reflexivity|].
      exists seps, rest. split; [reflexivity | exact H]. }
    destruct Hs as (s' & -> & Htok').
    simpl. destruct (match_here (labelled_number label) (String c s')) as [gs|] eqn:E.
    + apply match_here_inv in E as [tok' H'].
      specialize (Hleft _ _ H'). simpl in Hleft. lia.
    + apply IH; [assumption|].
      intros pre' tok' (seps & rest & -> & H).
      assert (L : labelled_token label
                    (String c (pre' +:+ label +:+ seps +:+ tok' +:+ rest))
                    (String c pre') tok').
      { exists seps, rest. split; [reflexivity | exact H]. }
      specialize (Hleft _ _ L). simpl in Hleft. lia.
Qed.
End LabelledNumber.

(** C8, as the code has it: on a text that [json.loads] rejects, when a
    run of [+] and digits follows the label [phone_number] and one or more
    separators (single quote, double quote, white space, colon), the
    fallback extraction recovers the leftmost such run, whole and character
    for character, and resolution returns it as the phone number. *)
Theorem fallback_recovers_leftmost_token (h : host) (s pre tok : string) :
  json_loads h s = Raise JSONDecodeError ->
  labelled_token "phone_number" s pre tok ->
  (forall pre' tok', labelled_token "phone_number" s pre' tok' ->
                     String.length pre <= String.length pre') ->
  exists d, resolve_dial_info h (PStr s) = Ret (PDict d) /\
            d !! "phone_number" = Some (PStr tok).
Proof.
  intros Hjson Htok Hleft.
  assert (Hs : truthy (PStr s) = true).
  { destruct Htok as (seps & rest & -> & _). destruct pre; reflexivity. }
  unfold resolve_dial_info, parse_metadata. rewrite Hs, Hjson.
  destruct (resolve_dict_total h (regex_fallback s)) as [d Hd].
  exists d. split; [assumption|].
  apply apply_defaults_inv in Hd as (d0 & [= <-] & _ & _ & _ & Hkeep).
  apply Hkeep. unfold regex_fallback.
  rewrite (re_search_leftmost "phone_number" pre s tok Htok Hleft). simpl.
  destruct (re_search (labelled_number "transfer_to") s).
  - rewrite lookup_insert_ne by discriminate. apply lookup_insert_eq.
  - apply lookup_insert_eq.
Qed.

(** * Instances *)

(** C1 fails as stated: after [end_call] has deleted the room, the call
    has ended, and still [confirm_appointment] confirms a reservation and
    [detected_answering_machine] sends another delete-room request. *)
Lemma tools_act_after_end :
  let h := quiet_host [] None in
  let self := answered both_numbers in
  end_call h self [] = (Ret PNone, room_deleted) /\
  call_ended room_deleted = true /\
  invoke h self (ConfirmAppointment "tomorrow" "1pm") room_deleted
    = (Ret (PStr "reservation confirmed"), room_deleted) /\
  invoke h self DetectedAnsweringMachine room_deleted
    = (Ret PNone, room_deleted ++ room_deleted).
Proof. repeat split. Qed.

Lemma tools_ignore_call_state_witness :
  call_ended room_deleted = true /\
  invoke (quiet_host [] None) (answered both_numbers) EndCall room_deleted
  = (Ret PNone, room_deleted ++ room_deleted).
Proof.
  split; [reflexivity|].
  exact (tools_ignore_call_state (quiet_host [] None) (answered both_numbers)
           EndCall room_deleted eq_refl).
Defined.

(** C2 fails as stated: the second [end_call] sends a second delete-room
    request and returns [None], as the first did. *)
Lemma end_call_twice_two_teardowns :
  let h := quiet_host [] None in
  let self := answered both_numbers in
  end_call h self [] = (Ret PNone, room_deleted) /\
  end_call h self room_deleted = (Ret PNone, room_deleted ++ room_deleted) /\
  teardown_requests (room_deleted ++ room_deleted) = 2.
Proof. repeat split. Qed.

Lemma end_call_twice_witness :
  PNone = PNone /\ PNone = PNone /\
  teardown_requests (room_deleted ++ room_deleted) = teardown_requests [] + 2.
Proof.
  exact (end_call_twice (quiet_host [] None) (answered both_numbers)
           [] room_deleted (room_deleted ++ room_deleted) PNone PNone
           eq_refl eq_refl).
Defined.

Lemma transfer_call_without_number_witness :
  let h := quiet_host [] None in
  let self := answered no_transfer_number in
  transfer_call h self [] = (Ret (PStr "cannot transfer call"), []) /\
  call_ended (snd (transfer_call h self [])) = call_ended [].
Proof.
  apply (transfer_call_without_number (quiet_host [] None)
           (PDict (<["phone_number" := PStr "+15551234567"]> ∅))
           (answered no_transfer_number) []).
  - vm_compute. reflexivity.
  - intros v H. vm_compute in H. injection H as <-. reflexivity.
Defined.

Lemma transfer_announces_first_witness :
  exists new,
    snd (transfer_call refusing_host (answered both_numbers) []) = [] ++ new /\
    (forall pre rm who to post,
       new = pre ++ Issued (TransferSIPParticipant rm who to) :: post ->
       In (Completed announcement) pre) /\
    (forall p,
       participant (answered both_numbers) = Some p ->
       outcome refusing_host ([] ++ [Issued announcement]) announcement = None ->
       exists post,
         new = [Issued announcement; Completed announcement;
                Issued (TransferSIPParticipant (room refusing_host)
                          (identity p) (PStr "+15557654321"))]
               ++ post).
Proof.
  apply (transfer_announces_first refusing_host (answered both_numbers)
           (PStr "+15557654321") []).
  - vm_compute. reflexivity.
  - reflexivity.
Defined.



Lemma no_dial_without_number_witness :
  exists r new,
    entrypoint (quiet_host [] None) PNone [] = (r, [] ++ new) /\
    dial_requests new = 0 /\
    (outcome (quiet_host [] None) ([] ++ [Issued Connect]) Connect = None ->
     r = Ret (new_OutboundCaller defaults_only) /\
     new = [Issued Connect; Completed Connect; Spawned SessionStart;
            LogError "Cannot make outbound call: no phone number provided";
            Shutdown]).
Proof.
  apply (no_dial_without_number (quiet_host [] None) PNone defaults_only
           (PStr EmptyString) []).
  - vm_compute. reflexivity.
  - vm_compute. reflexivity.
  - reflexivity.
Defined.

(** Of two labelled tokens the leftmost is the one recovered, also when
    its label is only the tail of a longer word. *)
Lemma fallback_takes_first_label :
  json_loads (quiet_host [] None) two_labels = Raise JSONDecodeError /\
  labelled_token "phone_number" two_labels
    "{'office_phone_number': '+15550000000', '" "+15551234567" /\
  exists d,
    resolve_dial_info (quiet_host [] None) (PStr two_labels) = Ret (PDict d) /\
    d !! "phone_number" = Some (PStr "+15550000000").
Proof.
  split; [reflexivity|]. split.
  - exists "': '", "'}". repeat split; discriminate.
  - eexists. split; [vm_compute; reflexivity|]. vm_compute. reflexivity.
Qed.

(** C8 fails as stated: a number under a [phone_number] label is not
    recovered when an equals sign or the backslash of an escaped quote
    follows the label (the resolved number is then the default, here
    empty), and a number written with dashes is recovered up to the first
    dash only. *)
Lemma fallback_misses_labelled_numbers :
  let h := quiet_host [] None in
  json_loads h "phone_number=+15551234567" = Raise JSONDecodeError /\
  resolve_dial_info h (PStr "phone_number=+15551234567")
  = Ret (PDict defaults_only) /\
  json_loads h escaped_json = Raise JSONDecodeError /\
  resolve_dial_info h (PStr escaped_json) = Ret (PDict defaults_only) /\
  json_loads h "phone_number: +1-555-123-4567" = Raise JSONDecodeError /\
  exists d,
    resolve_dial_info h (PStr "phone_number: +1-555-123-4567")
    = Ret (PDict d) /\
    d !! "phone_number" = Some (PStr "+1").
Proof.
  repeat split; try (vm_compute; reflexivity).
  eexists. split; vm_compute; reflexivity.
Qed.

Lemma fallback_recovers_leftmost_token_witness :
  exists d,
    resolve_dial_info (quiet_host [] None)
      (PStr "phone_number: +15551234567, transfer_to: none") = Ret (PDict d) /\
    d !! "phone_number" = Some (PStr "+15551234567").
Proof.
  apply (fallback_recovers_leftmost_token (quiet_host [] None)
           "phone_number: +15551234567, transfer_to: none"
           EmptyString "+15551234567").
  - reflexivity.
  - exists ": ", ", transfer_to: none". repeat split; discriminate.
  - intros pre' tok' _. simpl. lia.
Defined.

Lemma tools_need_participant_witness :
  let h := quiet_host [] None in
  let self := new_OutboundCaller both_numbers in
  end_call h self [] = (Raise AttributeError, []) /\
  detected_answering_machine h self [] = (Raise AttributeError, []) /\
  participant (new_OutboundCaller (dial_info self)) = None /\
  forall p, participant (set_participant self p) = Some p.
Proof.
  exact (tools_need_participant (quiet_host [] None)
           (new_OutboundCaller both_numbers) [] eq_refl).
Defined.

(** * Further properties *)

(** ** Defaults *)

Lemma fill_union (key : string) (x : pyval) (d : gmap string pyval) :
  match d !! key with Some _ => d | None => <[key := x]> d end
  = d ∪ {[ key := x ]}.
Proof.
  destruct (d !! key) as [y|] eqn:E.
  - apply map_eq. intros i. rewrite lookup_union.
    destruct (decide (key = i)) as [<-|Hne].
    + rewrite E, lookup_singleton_eq. reflexivity.
    + rewrite lookup_singleton_ne by assumption. now destruct (d !! i).
  - now apply insert_union_singleton_r.
Qed.

Lemma apply_defaults_union (h : host) (d0 : gmap string pyval) :
  apply_defaults h (PDict d0) = Ret (PDict (d0 ∪ default_dial_info h)).
Proof.
  unfold apply_defaults. rewrite set_default_dict. simpl.
  rewrite set_default_dict. simpl. rewrite set_default_dict.
  rewrite !fill_union. unfold default_dial_info.
  rewrite !insert_union_singleton_l, (right_id_L ∅ (∪)).
  rewrite <- !(assoc_L (∪)). reflexivity.
Qed.

(** ** Resolution, branch by branch *)

(** X1: metadata that is already a dict resolves to itself laid over the
    three defaults: a key the dict has keeps its value, also an empty
    one, a key it lacks gets the default, and other keys stay. *)
Theorem resolve_dict_metadata (h : host) (d0 : gmap string pyval) :
  resolve_dial_info h (PDict d0) = Ret (PDict (d0 ∪ default_dial_info h)).
Proof.
  unfold resolve_dial_info, parse_metadata. simpl.
  destruct (bool_decide (d0 = ∅)) eqn:E; simpl.
  - apply bool_decide_eq_true_1 in E as ->. apply apply_defaults_union.
  - apply apply_defaults_union.
Qed.

(** X2: a text that decodes to a JSON object resolves to that object laid
    over the three defaults. *)
Theorem resolve_json_object (h : host) (s : string) (d0 : gmap string pyval) :
  s <> EmptyString -> json_loads h s = Ret (PDict d0) ->
  resolve_dial_info h (PStr s) = Ret (PDict (d0 ∪ default_dial_info h)).
Proof.
  intros Hs Hjson. unfold resolve_dial_info, parse_metadata.
  destruct s as [|c s]; [congruence|]. simpl. rewrite Hjson.
  apply apply_defaults_union.
Qed.

(** X3: metadata that is absent or otherwise false ([None], the empty
    text, an empty dict, zero) resolves to the defaults alone; the decoder
    is not consulted. *)
Theorem resolve_absent_metadata (h : host) (metadata : pyval) :
  truthy metadata = false ->
  resolve_dial_info h metadata = Ret (PDict (default_dial_info h)).
Proof.
  intros Hm. unfold resolve_dial_info, parse_metadata. rewrite Hm.
  rewrite apply_defaults_union. now rewrite (left_id_L ∅ (∪)).
Qed.

(** X4: when decoding fails with anything but [JSONDecodeError] the outer
    handler takes over: the defaults alone, whatever the text holds. *)
Theorem resolve_decoder_failure (h : host) (s : string) (e : exn) :
  json_loads h s = Raise e -> e <> JSONDecodeError ->
  resolve_dial_info h (PStr s) = Ret (PDict (default_dial_info h)).
Proof.
  intros Hjson He. unfold resolve_dial_info, parse_metadata.
  destruct (truthy (PStr s)).
  - rewrite Hjson.
    destruct e; try congruence;
      rewrite apply_defaults_union; now rewrite (left_id_L ∅ (∪)).
  - rewrite apply_defaults_union. now rewrite (left_id_L ∅ (∪)).
Qed.

Lemma exn_is_decode (e : exn) :
  e = JSONDecodeError \/ e <> JSONDecodeError.
Proof. destruct e; auto; right; discriminate. Qed.

(** ** More on the fallback extraction *)

Section ClassPlusTotal.
Context {A : Type} (cls : ascii -> bool) (k : string -> option A).
Hypothesis k_total : forall s, k s <> None.

Lemma class_plus_starts (s : string) :
  starts_with cls s = true -> class_plus cls s k <> None.
Proof.
  destruct s as [|c s]; simpl; [discriminate|]. intros ->.
  destruct (class_plus cls s k); [discriminate | apply k_total].
Qed.

(** With nothing after it that can fail, [[cls]+] takes the whole run. *)
Lemma class_plus_takes_all (s : string) (r : A) :
  class_plus cls s k = Some r ->
  exists t rest, s = t +:+ rest /\ t <> EmptyString /\
                 all_chars cls t = true /\
                 starts_with cls rest = false /\ k rest = Some r.
Proof.
  revert r. induction s as [|c s IH]; intros r; simpl; [discriminate|].
  destruct (cls c) eqn:Hc; [|discriminate].
  destruct (class_plus cls s k) as [r'|] eqn:E.
  - intros [= ->]. destruct (IH _ eq_refl) as (t & rest & -> & _ & Ha & Hr & Hk).
    exists (String c t), rest. simpl. rewrite Hc, Ha.
    repeat split; auto; discriminate.
  - intros Hk. exists (String c EmptyString), s. simpl. rewrite Hc.
    repeat split; auto; try discriminate.
    destruct (starts_with cls s) eqn:Hs; [|reflexivity].
    now apply class_plus_starts in Hs.
Qed.
End ClassPlusTotal.

Section LabelledSearch.
Variable label : string.

Lemma match_here_shape (s : string) (gs : list string) :
  match_here (labelled_number label) s = Some gs ->
  exists tok, gs = [tok] /\ labelled_token label s EmptyString tok.
Proof.
  unfold match_here, labelled_number. simpl.
  destruct (strip_literal label s) as [s1|] eqn:E; [|discriminate].
  apply strip_literal_inv in E as ->.
  intros H. apply class_plus_inv in H as (seps & s2 & -> & Hs & Hsa & H).
  apply class_plus_takes_all in H as (t & rest & -> & Ht & Hta & Hr & Hk);
    [|discriminate].
  rewrite consumed_append in Hk. injection Hk as <-.
  exists t. split; [reflexivity|]. exists seps, rest. simpl. auto 10.
Qed.

Lemma labelled_token_cons (c : ascii) (s pre tok : string) :
  labelled_token label s pre tok ->
  labelled_token label (String c s) (String c pre) tok.
Proof.
  intros (seps & rest & -> & H). exists seps, rest.
  split; [reflexivity | exact H].
Qed.

(** What [re.search] returns is a labelled token of the text. *)
Lemma re_search_inv (s : string) (gs : list string) :
  re_search (labelled_number label) s = Some gs ->
  exists pre tok, gs = [tok] /\ labelled_token label s pre tok.
Proof.
  induction s as [|c s IH]; simpl.
  - destruct (match_here (labelled_number label) EmptyString) eqn:E;
      [|discriminate].
    intros [= <-]. apply match_here_shape in E as (tok & -> & H). eauto.
  - destruct (match_here (labelled_number label) (String c s)) eqn:E.
    + intros [= <-]. apply match_here_shape in E as (tok & -> & H). eauto.
    + intros H. destruct (IH H) as (pre & tok & -> & Htok).
      exists (String c pre), tok. split; [reflexivity|].
      now apply labelled_token_cons.
Qed.

(** A text with a labelled token has a match. *)
Lemma re_search_finds (s pre tok : string) :
  labelled_token label s pre tok ->
  re_search (labelled_number label) s <> None.
Proof.
  revert s. induction pre as [|c pre IH]; intros s Htok.
  - destruct Htok as (seps & rest & -> & Hs & Hsa & Ht & Hta & Hr).
    assert (E := match_here_token label seps tok rest Hs Hsa Ht Hta Hr).
    simpl in *. destruct (label +:+ seps +:+ tok +:+ rest); simpl;
      now rewrite E.
  - destruct Htok as (seps & rest & -> & H). simpl.
    destruct (match_here _ _); [discriminate|].
    apply IH. exists seps, rest. split; [reflexivity | exact H].
Qed.
End LabelledSearch.

(** A text that [json.loads] rejects resolves to what the two searches
    find, over the defaults. *)
Lemma resolve_rejected_text (h : host) (s : string) :
  json_loads h s = Raise JSONDecodeError ->
  resolve_dial_info h (PStr s)
  = Ret (PDict (regex_fallback s ∪ default_dial_info h)).
Proof.
  intros Hjson. unfold resolve_dial_info, parse_metadata.
  destruct s as [|c s]; simpl.
  - apply apply_defaults_union.
  - rewrite Hjson. apply apply_defaults_union.
Qed.

Lemma regex_fallback_phone_number (s : string) :
  regex_fallback s !! "phone_number"
  = match re_search (labelled_number "phone_number") s with
    | Some m => Some (PStr (group1 m))
    | None => None
    end.
Proof.
  unfold regex_fallback.
  destruct (re_search (labelled_number "phone_number") s);
    destruct (re_search (labelled_number "transfer_to") s);
    rewrite ?lookup_insert_ne by discriminate;
    rewrite ?lookup_insert_eq, ?lookup_empty; reflexivity.
Qed.

Lemma regex_fallback_transfer_to (s : string) :
  regex_fallback s !! "transfer_to"
  = match re_search (labelled_number "transfer_to") s with
    | Some m => Some (PStr (group1 m))
    | None => None
    end.
Proof.
  unfold regex_fallback.
  destruct (re_search (labelled_number "phone_number") s);
    destruct (re_search (labelled_number "transfer_to") s);
    rewrite ?lookup_insert_eq; rewrite ?lookup_insert_ne by discriminate;
    rewrite ?lookup_empty; reflexivity.
Qed.

Lemma regex_fallback_other (s key : string) :
  key <> "phone_number" -> key <> "transfer_to" ->
  regex_fallback s !! key = None.
Proof.
  intros H1 H2. unfold regex_fallback.
  destruct (re_search (labelled_number "phone_number") s);
    destruct (re_search (labelled_number "transfer_to") s);
    rewrite ?lookup_insert_ne by congruence; apply lookup_empty.
Qed.

(** X5: a rejected text in which no token stands under a [phone_number]
    label resolves to the default phone number. *)
Theorem fallback_without_label_uses_default (h : host) (s : string) :
  json_loads h s = Raise JSONDecodeError ->
  (forall pre tok, ~ labelled_token "phone_number" s pre tok) ->
  exists d, resolve_dial_info h (PStr s) = Ret (PDict d) /\
    d !! "phone_number"
    = Some (PStr (getenv_or h "DEFAULT_PHONE_NUMBER" EmptyString)).
Proof.
  intros Hjson Hno. eexists. split; [now apply resolve_rejected_text|].
  apply lookup_union_Some_raw. right. split; [|reflexivity].
  rewrite regex_fallback_phone_number.
  destruct (re_search (labelled_number "phone_number") s) as [gs|] eqn:E;
    [|reflexivity].
  apply re_search_inv in E as (pre & tok & _ & Htok).
  now destruct (Hno pre tok).
Qed.

(** X6: a rejected text that has a token under a [phone_number] label
    never resolves to the default: the phone number is one of the
    labelled tokens of the text, non-empty and so dialled. *)
Theorem fallback_number_is_a_labelled_token (h : host) (s pre tok : string) :
  json_loads h s = Raise JSONDecodeError ->
  labelled_token "phone_number" s pre tok ->
  exists d pre' tok',
    resolve_dial_info h (PStr s) = Ret (PDict d) /\
    d !! "phone_number" = Some (PStr tok') /\
    labelled_token "phone_number" s pre' tok' /\
    truthy (PStr tok') = true.
Proof.
  intros Hjson Htok.
  destruct (re_search (labelled_number "phone_number") s) as [gs|] eqn:E.
  2:{ now apply re_search_finds in Htok. }
  apply re_search_inv in E as E'. destruct E' as (pre' & tok' & -> & Htok').
  eexists _, pre', tok'. split; [now apply resolve_rejected_text|].
  split; [|split; [assumption|]].
  - apply lookup_union_Some_raw. left.
    rewrite regex_fallback_phone_number, E. reflexivity.
  - destruct Htok' as (_ & _ & _ & _ & _ & Hne & _).
    destruct tok'; [congruence | reflexivity].
Qed.

(** X7: on a rejected text the transfer number is, character for
    character, the leftmost token under a [transfer_to] label. *)
Theorem fallback_recovers_leftmost_transfer (h : host) (s pre tok : string) :
  json_loads h s = Raise JSONDecodeError ->
  labelled_token "transfer_to" s pre tok ->
  (forall pre' tok', labelled_token "transfer_to" s pre' tok' ->
                     String.length pre <= String.length pre') ->
  exists d, resolve_dial_info h (PStr s) = Ret (PDict d) /\
            d !! "transfer_to" = Some (PStr tok).
Proof.
  intros Hjson Htok Hleft. eexists. split; [now apply resolve_rejected_text|].
  apply lookup_union_Some_raw. left.
  rewrite regex_fallback_transfer_to.
  now rewrite (re_search_leftmost "transfer_to" pre s tok Htok Hleft).
Qed.

(** X8: when decoding fails, the prospect name is the placeholder
    [there], whatever the text says about a name. *)
Theorem fallback_never_reads_the_name (h : host) (s : string) (e : exn) :
  json_loads h s = Raise e ->
  exists d, resolve_dial_info h (PStr s) = Ret (PDict d) /\
            d !! "prospect_name" = Some (PStr "there").
Proof.
  intros Hjson. destruct (exn_is_decode e) as [->|He].
  - eexists. split; [now apply resolve_rejected_text|].
    apply lookup_union_Some_raw. right.
    split; [now apply regex_fallback_other | reflexivity].
  - exists (default_dial_info h). split; [|reflexivity].
    unfold resolve_dial_info, parse_metadata.
    destruct (truthy (PStr s)).
    + rewrite Hjson.
      destruct e; try congruence;
        rewrite apply_defaults_union; now rewrite (left_id_L ∅ (∪)).
    + rewrite apply_defaults_union. now rewrite (left_id_L ∅ (∪)).
Qed.

Ltac unfold_entrypoint :=
  unfold entrypoint, try_except_twirp, try_except, await, emit, lift,
    py_getitem, bind, ret, raise in *.

(** ** entrypoint, path by path *)

(** X9: with a non-empty string to dial and collaborators that all
    answer, [entrypoint] joins the room, spawns the session, dials the
    resolved number on the configured trunk as [phone_user], waits for that
    participant and leaves the agent bound to it. *)
Theorem entrypoint_answered (h : host) (metadata : pyval)
    (d : gmap string pyval) (number : string) (tr : list event) :
  let dial := dial_request h (PStr number) in
  let tr1 := tr ++ [Issued Connect; Completed Connect; Spawned SessionStart;
                    Issued dial] in
  let tr2 := tr1 ++ [Completed dial;
                     Issued (WaitForParticipant "phone_user")] in
  resolve_dial_info h metadata = Ret (PDict d) ->
  d !! "phone_number" = Some (PStr number) -> number <> EmptyString ->
  outcome h (tr ++ [Issued Connect]) Connect = None ->
  outcome h tr1 dial = None ->
  outcome h tr2 (WaitForParticipant "phone_user") = None ->
  entrypoint h metadata tr
  = (Ret (set_participant (new_OutboundCaller d) phone_user),
     tr2 ++ [Completed (WaitForParticipant "phone_user")]).
Proof.
  intros dial tr1 tr2 Hres Hv Hne Hc Hd Hw. subst dial tr1 tr2.
  unfold dial_request in *. revert Hd Hw. norm_trace. intros Hd Hw.
  assert (Ht : truthy (PStr number) = true)
    by (destruct number; [congruence | reflexivity]).
  unfold_entrypoint. rewrite Hc, Hres. norm_trace. rewrite Hv, Ht. simpl.
  norm_trace. rewrite Hd. norm_trace. rewrite Hw. reflexivity.
Qed.

(** X10: when the dial request for a non-empty string number raises, only
    [TwirpError] is handled: the error is logged, the job shut down and
    the agent left unbound; any other exception leaves [entrypoint] as it
    is, with no shutdown. *)
Theorem entrypoint_dial_failure (h : host) (metadata : pyval)
    (d : gmap string pyval) (number : string) (e : exn) (tr : list event) :
  let dial := dial_request h (PStr number) in
  let tr1 := tr ++ [Issued Connect; Completed Connect; Spawned SessionStart;
                    Issued dial] in
  resolve_dial_info h metadata = Ret (PDict d) ->
  d !! "phone_number" = Some (PStr number) -> number <> EmptyString ->
  outcome h (tr ++ [Issued Connect]) Connect = None ->
  outcome h tr1 dial = Some e ->
  entrypoint h metadata tr
  = match e with
    | TwirpError =>
        (Ret (new_OutboundCaller d),
         tr1 ++ [Failed dial e;
                 LogError "error creating SIP participant"; Shutdown])
    | _ => (Raise e, tr1 ++ [Failed dial e])
    end.
Proof.
  intros dial tr1 Hres Hv Hne Hc Hd. subst dial tr1.
  unfold dial_request in *. revert Hd. norm_trace. intros Hd.
  assert (Ht : truthy (PStr number) = true)
    by (destruct number; [congruence | reflexivity]).
  unfold_entrypoint. rewrite Hc, Hres. norm_trace. rewrite Hv, Ht. simpl.
  norm_trace. rewrite Hd. destruct e; norm_trace; reflexivity.
Qed.

(** X11: in every run [entrypoint] dials at most once, and a dial request
    comes after the session was spawned, names [phone_user] and carries
    the resolved phone number, which is not empty. *)
Theorem dial_only_after_session_start (h : host) (metadata : pyval)
    (tr : list event) :
  exists new,
    snd (entrypoint h metadata tr) = tr ++ new /\
    dial_requests new <= 1 /\
    forall pre rm trunk number who post,
      new = pre ++ Issued (CreateSIPParticipant rm trunk number who) :: post ->
      In (Spawned SessionStart) pre /\
      who = "phone_user" /\ truthy number = true /\
      exists d, resolve_dial_info h metadata = Ret (PDict d) /\
                d !! "phone_number" = Some number.
Proof.
  unfold_entrypoint.
  destruct (outcome h (tr ++ [Issued Connect]) Connect) as [e|]; norm_trace.
  { eexists. split; [reflexivity|]. split; [unfold dial_requests; simpl; lia|].
    intros pre rm trunk number who post H. cut_trace H pre. }
  destruct (resolve_dial_info h metadata) as [v|e] eqn:Hres; norm_trace.
  2:{ eexists. split; [reflexivity|]. split; [unfold dial_requests; simpl; lia|].
      intros pre rm trunk number who post H. cut_trace H pre. }
  destruct v as [| | | | |l|d]; norm_trace;
    try (eexists; split; [reflexivity|]; split; [unfold dial_requests; simpl; lia|];
         intros pre rm trunk number who post H; cut_trace H pre; fail).
  destruct (d !! "phone_number") as [pn|] eqn:Hpn; norm_trace.
  2:{ eexists. split; [reflexivity|]. split; [unfold dial_requests; simpl; lia|].
      intros pre rm trunk number who post H. cut_trace H pre. }
  destruct (truthy pn) eqn:Ht; simpl; norm_trace.
  2:{ eexists. split; [reflexivity|]. split; [unfold dial_requests; simpl; lia|].
      intros pre rm trunk number who post H. cut_trace H pre. }
  destruct pn as [| | | |num| |]; norm_trace;
    try (eexists; split; [reflexivity|];
         split; [unfold dial_requests; simpl; lia|];
         intros pre rm trunk number who post H; cut_trace H pre; fail).
  repeat match goal with
         | |- context [match outcome h ?t ?r with _ => _ end] =>
             destruct (outcome h t r) as [[]|]; norm_trace
         end;
    (eexists; split; [reflexivity|]; split; [unfold dial_requests; simpl; lia|];
     intros pre rm trunk number who post H; cut_trace H pre;
     injection H as <- <- <- <- _;
     split; [simpl; auto|]; split; [reflexivity|]; split; [assumption|];
     eauto).
Qed.

(** X12: the agent [entrypoint] returns carries the resolved dial info,
    with its three keys, and is bound (to [phone_user]) only if the last
    thing that happened is the answer of [wait_for_participant]. *)
Theorem entrypoint_agent (h : host) (metadata : pyval) (tr tr' : list event)
    (agent : OutboundCaller) :
  entrypoint h metadata tr = (Ret agent, tr') ->
  resolve_dial_info h metadata = Ret (PDict (dial_info agent)) /\
  is_Some (dial_info agent !! "phone_number") /\
  is_Some (dial_info agent !! "transfer_to") /\
  is_Some (dial_info agent !! "prospect_name") /\
  (participant agent = None \/
   participant agent = Some phone_user /\
   exists pre, tr' = pre ++ [Completed (WaitForParticipant "phone_user")]).
Proof.
  intros H.
  assert (Hres : resolve_dial_info h metadata = Ret (PDict (dial_info agent))).
  { revert H. unfold_entrypoint.
    destruct (outcome h (tr ++ [Issued Connect]) Connect); [discriminate|].
    destruct (resolve_dial_info h metadata) as [v|]; [|discriminate].
    destruct v; try discriminate.
    destruct (d !! "phone_number") as [pn|]; [|discriminate].
    destruct (truthy pn); simpl.
    - destruct pn; try discriminate.
      repeat match goal with
             | |- context [match outcome h ?t ?r with _ => _ end] =>
                 destruct (outcome h t r) as [[]|]
             end; intros H; inversion H; reflexivity.
    - intros H; inversion H; reflexivity. }
  split; [assumption|].
  destruct (resolve_populated _ _ _ Hres) as (H1 & H2 & H3).
  repeat (split; [assumption|]).
  exact (entrypoint_binds_after_answer h metadata tr tr' agent H).
Qed.

Lemma apply_defaults_non_dict (h : host) (v : pyval) :
  (forall d, v <> PDict d) ->
  apply_defaults h v = Raise TypeError \/ apply_defaults h v = Ret v.
Proof.
  intros Hv. unfold apply_defaults, set_default.
  destruct v as [| | | |s|l|d]; simpl; auto.
  - destruct (str_contains "phone_number" s); simpl; auto.
    destruct (str_contains "transfer_to" s); simpl; auto.
    destruct (str_contains "prospect_name" s); simpl; auto.
  - destruct (existsb (is_key "phone_number") l); simpl; auto.
    destruct (existsb (is_key "transfer_to") l); simpl; auto.
    destruct (existsb (is_key "prospect_name") l); simpl; auto.
  - now destruct (Hv d).
Qed.

(** X13: on a text that decodes to a JSON value other than an object,
    [entrypoint] raises [TypeError] or [AttributeError] right after
    joining the room: no session is spawned, nothing is dialled and the
    job is not shut down. *)
Theorem entrypoint_rejects_json_values (h : host) (s : string) (v : pyval)
    (tr : list event) :
  s <> EmptyString -> json_loads h s = Ret v -> (forall d, v <> PDict d) ->
  outcome h (tr ++ [Issued Connect]) Connect = None ->
  exists e,
    entrypoint h (PStr s) tr
    = (Raise e, tr ++ [Issued Connect; Completed Connect]) /\
    (e = TypeError \/ e = AttributeError).
Proof.
  intros Hs Hjson Hv Hc.
  assert (Hres : resolve_dial_info h (PStr s) = apply_defaults h v).
  { unfold resolve_dial_info, parse_metadata.
    destruct s; [congruence|]. simpl. now rewrite Hjson. }
  unfold_entrypoint. rewrite Hc, Hres. norm_trace.
  destruct (apply_defaults_non_dict h v Hv) as [-> | ->].
  - eauto.
  - destruct v; eauto. now destruct (Hv d).
Qed.

(** ** Tools, path by path *)

(** X14: when the provider takes the transfer, [transfer_call] returns
    [None] after the announcement and the one transfer request; it sends
    no apology and does not delete the room. *)
Theorem transfer_call_success (h : host) (self : OutboundCaller)
    (p : RemoteParticipant) (v : pyval) (tr : list event) :
  let transfer := TransferSIPParticipant (room h) (identity p) v in
  let tr1 :=
    tr ++ [Issued announcement; Completed announcement; Issued transfer] in
  participant self = Some p ->
  dial_info self !! "transfer_to" = Some v -> truthy v = true ->
  outcome h (tr ++ [Issued announcement]) announcement = None ->
  outcome h tr1 transfer = None ->
  transfer_call h self tr = (Ret PNone, tr1 ++ [Completed transfer]) /\
  teardown_requests (snd (transfer_call h self tr)) = teardown_requests tr.
Proof.
  intros transfer tr1 Hp Hv Ht Ha Hx. subst transfer tr1.
  unfold announcement in *. revert Hx. norm_trace. intros Hx.
  assert (E : transfer_call h self tr =
    (Ret PNone,
     tr ++ [Issued (GenerateReply "let the user know you'll be transferring them");
            Completed (GenerateReply "let the user know you'll be transferring them");
            Issued (TransferSIPParticipant (room h) (identity p) v);
            Completed (TransferSIPParticipant (room h) (identity p) v)])).
  { unfold_caller. rewrite Hp, Hv, Ht. simpl. rewrite Ha. norm_trace.
    rewrite Hx. norm_trace. reflexivity. }
  rewrite E. split; [reflexivity|]. simpl. unfold teardown_requests.
  rewrite count_events_app. simpl. lia.
Qed.


(** X16: when the announcement raises, [transfer_call] raises the same
    exception; no transfer request is sent and the room stays. *)
Theorem transfer_call_announcement_fails (h : host) (self : OutboundCaller)
    (v : pyval) (e : exn) (tr : list event) :
  dial_info self !! "transfer_to" = Some v -> truthy v = true ->
  outcome h (tr ++ [Issued announcement]) announcement = Some e ->
  transfer_call h self tr
  = (Raise e, tr ++ [Issued announcement; Failed announcement e]).
Proof.
  intros Hv Ht Ha. unfold announcement in *.
  unfold_caller. rewrite Hv, Ht. simpl. rewrite Ha. norm_trace. reflexivity.
Qed.

(** X17: [detected_answering_machine] is [end_call] without the wait: it
    does, whatever is being spoken, what [end_call] does when nothing is
    being spoken. *)
Theorem answering_machine_is_end_call_without_wait (h : host)
    (self : OutboundCaller) (tr : list event) :
  detected_answering_machine h self tr = end_call (without_speech h) self tr.
Proof.
  unfold_caller. simpl. destruct (participant self); [|reflexivity].
  norm_trace. destruct (outcome h _ _); reflexivity.
Qed.

(** X18: in every run [end_call] sends at most one delete-room request;
    when it returns, it returns [None], has sent exactly one and the room
    is deleted. *)
Theorem end_call_one_teardown (h : host) (self : OutboundCaller)
    (tr : list event) :
  exists new,
    snd (end_call h self tr) = tr ++ new /\
    teardown_requests new <= 1 /\
    forall r, fst (end_call h self tr) = Ret r ->
      r = PNone /\ teardown_requests new = 1 /\
      call_ended (tr ++ new) = true.
Proof.
  unfold_caller. unfold teardown_requests, call_ended.
  destruct (participant self) as [p0|].
  2:{ exists []. rewrite app_nil_r. simpl. repeat split; try lia; discriminate. }
  destruct (current_speech h) as [speech|].
  { exists []. rewrite app_nil_r. simpl. repeat split; try lia; discriminate. }
  norm_trace; split_outcomes h;
    (eexists; split; [reflexivity|]; split; [simpl; lia|];
     intros r Hr; simpl in Hr;
     first [ discriminate Hr
           | injection Hr as <-; split; [reflexivity|];
             split; [reflexivity|];
             rewrite existsb_app; simpl; rewrite ?orb_true_r; reflexivity ]).
Qed.

(** X19: the two query tools need a participant as well: without one
    both raise [AttributeError] at once; with one,
    [look_up_availability] sleeps three seconds and returns the same
    three slots for every date, [confirm_appointment] confirms every date
    and time, and neither sends a request or ends the call. *)
Theorem query_tools (self : OutboundCaller) (date time : string)
    (tr : list event) :
  match participant self with
  | None =>
      look_up_availability self date tr = (Raise AttributeError, tr) /\
      confirm_appointment self date time tr = (Raise AttributeError, tr)
  | Some _ =>
      look_up_availability self date tr
      = (Ret (PDict {[ "available_times" :=
                         PList [PStr "1pm"; PStr "2pm"; PStr "3pm"] ]}),
         tr ++ [Slept 3]) /\
      confirm_appointment self date time tr
      = (Ret (PStr "reservation confirmed"), tr) /\
      call_ended (tr ++ [Slept 3]) = call_ended tr
  end.
Proof.
  unfold_caller. destruct (participant self); repeat split.
  unfold call_ended. rewrite existsb_app. simpl. now rewrite orb_false_r.
Qed.

(** ** After a call nobody answered *)

(** X20: after the dial of a non-empty string number was refused with
    [TwirpError] the room is still there and the agent left behind has no
    participant: every tool but [transfer_call] raises [AttributeError] on
    it. *)
Theorem tools_after_failed_dial (h : host) (metadata : pyval)
    (d : gmap string pyval) (number : string) (tr : list event) :
  let dial := dial_request h (PStr number) in
  let tr1 := tr ++ [Issued Connect; Completed Connect; Spawned SessionStart;
                    Issued dial] in
  resolve_dial_info h metadata = Ret (PDict d) ->
  d !! "phone_number" = Some (PStr number) -> number <> EmptyString ->
  outcome h (tr ++ [Issued Connect]) Connect = None ->
  outcome h tr1 dial = Some TwirpError ->
  exists agent tr',
    entrypoint h metadata tr = (Ret agent, tr') /\
    call_ended tr' = call_ended tr /\
    forall t tr2, t <> TransferCall ->
      invoke h agent t tr2 = (Raise AttributeError, tr2).
Proof.
  intros dial tr1 Hres Hv Hne Hc Hd. subst dial tr1.
  unfold dial_request in *. revert Hd. norm_trace. intros Hd.
  assert (Ht : truthy (PStr number) = true)
    by (destruct number; [congruence | reflexivity]).
  eexists _, _. split; [|split].
  - unfold_entrypoint. rewrite Hc, Hres. norm_trace. rewrite Hv, Ht. simpl.
    norm_trace. rewrite Hd. norm_trace. reflexivity.
  - unfold call_ended. rewrite existsb_app. simpl. apply orb_false_r.
  - intros t tr2 Hn. destruct t; try congruence; reflexivity.
Qed.

(** * Instances of the further properties *)

Lemma resolve_json_object_witness :
  resolve_dial_info (office_host [(phone_only_json, PDict phone_only)])
    (PStr phone_only_json)
  = Ret (PDict (phone_only
                ∪ default_dial_info
                    (office_host [(phone_only_json, PDict phone_only)]))).
Proof.
  apply (resolve_json_object
           (office_host [(phone_only_json, PDict phone_only)])
           phone_only_json phone_only).
  - vm_compute. discriminate.
  - vm_compute. reflexivity.
Defined.

Lemma resolve_absent_metadata_witness :
  resolve_dial_info (office_host []) (PStr EmptyString)
  = Ret (PDict (default_dial_info (office_host []))).
Proof.
  exact (resolve_absent_metadata (office_host []) (PStr EmptyString) eq_refl).
Defined.

Lemma resolve_decoder_failure_witness :
  resolve_dial_info overflowing_host (PStr deep_text)
  = Ret (PDict (default_dial_info overflowing_host)).
Proof.
  apply (resolve_decoder_failure overflowing_host deep_text OtherException).
  - reflexivity.
  - discriminate.
Defined.

Lemma fallback_without_label_witness :
  exists d,
    resolve_dial_info (office_host []) (PStr "phone_number=5551234")
    = Ret (PDict d) /\
    d !! "phone_number"
    = Some (PStr (getenv_or (office_host []) "DEFAULT_PHONE_NUMBER"
                    EmptyString)).
Proof.
  apply (fallback_without_label_uses_default (office_host [])
           "phone_number=5551234").
  - reflexivity.
  - intros pre tok Htok.
    apply (re_search_finds "phone_number") in Htok. apply Htok.
    vm_compute. reflexivity.
Defined.

Lemma fallback_number_is_a_labelled_token_witness :
  exists d pre' tok',
    resolve_dial_info (quiet_host [] None) (PStr two_labels) = Ret (PDict d) /\
    d !! "phone_number" = Some (PStr tok') /\
    labelled_token "phone_number" two_labels pre' tok' /\
    truthy (PStr tok') = true.
Proof.
  apply (fallback_number_is_a_labelled_token (quiet_host [] None) two_labels
           "{'office_phone_number': '+15550000000', '" "+15551234567").
  - reflexivity.
  - exists "': '", "'}". repeat split; discriminate.
Defined.

Lemma fallback_recovers_leftmost_transfer_witness :
  exists d,
    resolve_dial_info (quiet_host [] None)
      (PStr "transfer_to: +15557654321, phone_number: none") = Ret (PDict d) /\
    d !! "transfer_to" = Some (PStr "+15557654321").
Proof.
  apply (fallback_recovers_leftmost_transfer (quiet_host [] None)
           "transfer_to: +15557654321, phone_number: none"
           EmptyString "+15557654321").
  - reflexivity.
  - exists ": ", ", phone_number: none". repeat split; discriminate.
  - intros pre' tok' _. simpl. lia.
Defined.

Lemma fallback_never_reads_the_name_witness :
  exists d,
    resolve_dial_info (quiet_host [] None)
      (PStr "{'prospect_name': 'Ada', 'phone_number': '+15551234567'}")
    = Ret (PDict d) /\
    d !! "prospect_name" = Some (PStr "there").
Proof.
  exact (fallback_never_reads_the_name (quiet_host [] None)
           "{'prospect_name': 'Ada', 'phone_number': '+15551234567'}"
           JSONDecodeError eq_refl).
Defined.

Lemma entrypoint_answered_witness :
  entrypoint (office_host []) (PDict phone_only) []
  = (Ret (set_participant
            (new_OutboundCaller (phone_only ∪ default_dial_info (office_host [])))
            phone_user),
     [Issued Connect; Completed Connect; Spawned SessionStart;
      Issued (dial_request (office_host []) (PStr "+15551234567"));
      Completed (dial_request (office_host []) (PStr "+15551234567"));
      Issued (WaitForParticipant "phone_user");
      Completed (WaitForParticipant "phone_user")]).
Proof.
  apply (entrypoint_answered (office_host []) (PDict phone_only)
           (phone_only ∪ default_dial_info (office_host []))
           "+15551234567" []).
  - vm_compute. reflexivity.
  - vm_compute. reflexivity.
  - discriminate.
  - reflexivity.
  - reflexivity.
  - reflexivity.
Defined.

Lemma entrypoint_dial_failure_witness :
  entrypoint unanswered_host (PDict phone_only) []
  = (Ret (new_OutboundCaller (phone_only ∪ default_dial_info unanswered_host)),
     [Issued Connect; Completed Connect; Spawned SessionStart;
      Issued (dial_request unanswered_host (PStr "+15551234567"));
      Failed (dial_request unanswered_host (PStr "+15551234567")) TwirpError;
      LogError "error creating SIP participant"; Shutdown]).
Proof.
  apply (entrypoint_dial_failure unanswered_host (PDict phone_only)
           (phone_only ∪ default_dial_info unanswered_host)
           "+15551234567" TwirpError []).
  - vm_compute. reflexivity.
  - vm_compute. reflexivity.
  - discriminate.
  - reflexivity.
  - reflexivity.
Defined.

Lemma entrypoint_agent_witness :
  let agent :=
    set_participant
      (new_OutboundCaller (phone_only ∪ default_dial_info (office_host [])))
      phone_user in
  resolve_dial_info (office_host []) (PDict phone_only)
  = Ret (PDict (dial_info agent)) /\
  is_Some (dial_info agent !! "phone_number") /\
  is_Some (dial_info agent !! "transfer_to") /\
  is_Some (dial_info agent !! "prospect_name") /\
  (participant agent = None \/
   participant agent = Some phone_user /\
   exists pre,
     [Issued Connect; Completed Connect; Spawned SessionStart;
      Issued (dial_request (office_host []) (PStr "+15551234567"));
      Completed (dial_request (office_host []) (PStr "+15551234567"));
      Issued (WaitForParticipant "phone_user");
      Completed (WaitForParticipant "phone_user")]
     = pre ++ [Completed (WaitForParticipant "phone_user")]).
Proof.
  apply (entrypoint_agent (office_host []) (PDict phone_only) []).
  vm_compute. reflexivity.
Defined.

Lemma entrypoint_rejects_json_values_witness :
  exists e,
    entrypoint (quiet_host [("15551234567", PInt 15551234567)] None)
      (PStr "15551234567") []
    = (Raise e, [] ++ [Issued Connect; Completed Connect]) /\
    (e = TypeError \/ e = AttributeError).
Proof.
  apply (entrypoint_rejects_json_values
           (quiet_host [("15551234567", PInt 15551234567)] None)
           "15551234567" (PInt 15551234567) []).
  - discriminate.
  - reflexivity.
  - discriminate.
  - reflexivity.
Defined.

Lemma transfer_call_success_witness :
  let transfer :=
    TransferSIPParticipant "room-1" "phone_user" (PStr "+15557654321") in
  transfer_call (quiet_host [] None) (answered both_numbers) []
  = (Ret PNone,
     [Issued announcement; Completed announcement; Issued transfer;
      Completed transfer]) /\
  teardown_requests
    (snd (transfer_call (quiet_host [] None) (answered both_numbers) []))
  = teardown_requests [].
Proof.
  exact (transfer_call_success (quiet_host [] None) (answered both_numbers)
           phone_user (PStr "+15557654321") []
           eq_refl eq_refl eq_refl eq_refl eq_refl).
Defined.


Lemma transfer_call_announcement_fails_witness :
  transfer_call mute_host (answered both_numbers) []
  = (Raise OtherException,
     [] ++ [Issued announcement; Failed announcement OtherException]).
Proof.
  exact (transfer_call_announcement_fails mute_host (answered both_numbers)
           (PStr "+15557654321") OtherException []
           eq_refl eq_refl eq_refl).
Defined.

Lemma tools_after_failed_dial_witness :
  exists agent tr',
    entrypoint unanswered_host (PDict phone_only) [] = (Ret agent, tr') /\
    call_ended tr' = call_ended [] /\
    forall t tr2, t <> TransferCall ->
      invoke unanswered_host agent t tr2 = (Raise AttributeError, tr2).
Proof.
  apply (tools_after_failed_dial unanswered_host (PDict phone_only)
           (phone_only ∪ default_dial_info unanswered_host)
           "+15551234567" []).
  - vm_compute. reflexivity.
  - vm_compute. reflexivity.
  - discriminate.
  - reflexivity.
  - reflexivity.
Defined.
